(** * Filtered NER and QA service ([app/main.py])

    A shallow embedding of the FastAPI application: the keyword filter
    [is_text_in_allowed_domain], the [POST /process/] handler
    [process_request] and the [GET /] handler [root].

    Python strings are sequences of Unicode code points; [str.lower] is
    modelled the way CPython computes it, including the one
    context-sensitive rule it implements (the final form of the Greek
    capital sigma).  The two transformers pipelines are external: they
    are parameters of the handler. *)

From Stdlib Require Import String Ascii List NArith ZArith Bool Lia.
From Stdlib Require Import Floats.SpecFloat.
From Stdlib Require QArith.
Import ListNotations.

Local Open Scope N_scope.

(* ------------------------------------------------------------------ *)
(** * Python strings *)

(** A [str] is a sequence of code points. *)
Definition pystr := list N.

(** A literal of the source, as its code points. *)
Definition py (s : string) : pystr :=
  List.map N_of_ascii (list_ascii_of_string s).

(** [s.startswith(sub)]. *)
Fixpoint startswith (s sub : pystr) {struct sub} : bool :=
  match sub, s with
  | [], _ => true
  | _ :: _, [] => false
  | c :: sub', d :: s' => (c =? d) && startswith s' sub'
  end.

(** [sub in s]: [sub] occurs at some offset of [s]. *)
Fixpoint str_contains (s sub : pystr) : bool :=
  startswith s sub ||
  match s with
  | [] => false
  | _ :: s' => str_contains s' sub
  end.

(** The mathematical reading of "occurs as a substring". *)
Definition substring (sub s : pystr) : Prop :=
  exists pre post, s = pre ++ sub ++ post.

(* ------------------------------------------------------------------ *)
(** * [str.lower]

    CPython lowers a string code point by code point ([do_lower]); each
    code point goes through [lower_ucs4], which consults the Unicode
    character database, except for U+03A3 whose image depends on its
    neighbours ([handle_capital_sigma]).  The database is not part of
    the application, so its rows outside Basic Latin are a parameter. *)

Class UnicodeDB := {
  ucd_tolower_full : N -> list N;      (* full lower-case mapping, non-ASCII *)
  ucd_is_cased : N -> bool;            (* property Cased *)
  ucd_is_case_ignorable : N -> bool    (* property Case_Ignorable *)
}.

Definition CAPITAL_SIGMA : N := 0x3A3.
Definition FINAL_SIGMA : N := 0x3C2.
Definition SMALL_SIGMA : N := 0x3C3.

Section Lower.
Context {db : UnicodeDB}.

(** [_PyUnicode_ToLowerFull]: Basic Latin is fixed by the standard
    (A-Z move by 32, everything else stays), the rest is the table. *)
Definition tolower_full (c : N) : list N :=
  if c <? 128 then
    if (65 <=? c) && (c <=? 90) then [c + 32] else [c]
  else ucd_tolower_full c.

(** First code point of [l] that is not case-ignorable: where each of
    the two scanning loops of [handle_capital_sigma] stops. *)
Definition skip_case_ignorable (l : list N) : option N :=
  List.find (fun c => negb (ucd_is_case_ignorable c)) l.

(** [handle_capital_sigma]: [before] is the text to the left of the
    sigma, nearest code point first; [after] the text to its right. *)
Definition handle_capital_sigma (before after : list N) : N :=
  let final_sigma :=
    match skip_case_ignorable before with
    | Some c => ucd_is_cased c
    | None => false
    end in
  let final_sigma :=
    if final_sigma then
      match skip_case_ignorable after with
      | None => true
      | Some c => negb (ucd_is_cased c)
      end
    else false in
  if final_sigma then FINAL_SIGMA else SMALL_SIGMA.

Definition lower_ucs4 (before : list N) (c : N) (after : list N) : list N :=
  if c =? CAPITAL_SIGMA then [handle_capital_sigma before after]
  else tolower_full c.

(** [do_lower], walking the text left to right; [before] holds the
    code points already passed, nearest first. *)
Fixpoint do_lower (before rest : list N) : list N :=
  match rest with
  | [] => []
  | c :: rest' => lower_ucs4 before c rest' ++ do_lower (c :: before) rest'
  end.

Definition lower (text : pystr) : pystr := do_lower [] text.

(** [do_lower] on a slice [rest] of a longer text, [after] being what
    follows the slice: the slice's share of the lowered text. *)
Fixpoint do_lower_in (before rest after : list N) : list N :=
  match rest with
  | [] => []
  | c :: rest' =>
      lower_ucs4 before c (rest' ++ after) ++ do_lower_in (c :: before) rest' after
  end.

(* ---------------------------------------------------------------- *)
(** * The domain filter *)

(** [for domain in domains: if domain in text.lower(): return True]
    and [return False] after the loop. *)
Fixpoint is_text_in_allowed_domain (text : pystr) (domains : list pystr) : bool :=
  match domains with
  | [] => false
  | domain :: domains' =>
      if str_contains (lower text) domain then true
      else is_text_in_allowed_domain text domains'
  end.

(** The same loop, remembering the value of [domain] at which it
    returns. *)
Fixpoint matching_domain (text : pystr) (domains : list pystr) : option pystr :=
  match domains with
  | [] => None
  | domain :: domains' =>
      if str_contains (lower text) domain then Some domain
      else matching_domain text domains'
  end.

End Lower.

(** The two lower-case forms of sigma. *)
Definition is_small_sigma (c : N) : bool :=
  (c =? FINAL_SIGMA) || (c =? SMALL_SIGMA).

(** A string without either of them. *)
Definition sigma_free (s : pystr) : bool :=
  forallb (fun c => negb (is_small_sigma c)) s.

(** Two code points that are equal, or both a lower-case sigma. *)
Definition eq_upto_sigma (a b : N) : Prop :=
  a = b \/ (is_small_sigma a = true /\ is_small_sigma b = true).

(** Basic Latin other than the capital letters: what [lower] leaves
    alone whatever surrounds it. *)
Definition ascii_uncapitalised (s : pystr) : bool :=
  forallb (fun c => (c <? 128) && negb ((65 <=? c) && (c <=? 90))) s.

(** The configured keyword list. *)
Definition allowed_domains : list pystr :=
  List.map py
    [ "clothing"; "fashion"; "shopping"; "accessories"; "sustainability";
      "shoes"; "hats"; "shirts"; "dresses"; "pants"; "jeans"; "skirts";
      "jackets"; "coats"; "t-shirts"; "sweaters"; "hoodies"; "activewear";
      "formal wear"; "casual wear"; "sportswear"; "outerwear"; "swimwear";
      "underwear"; "lingerie"; "socks"; "scarves"; "gloves"; "belts";
      "ties"; "caps"; "beanies"; "boots"; "sandals"; "heels"; "sneakers";
      "materials"; "cotton"; "polyester"; "wool"; "silk"; "leather";
      "denim"; "linen"; "athleisure"; "ethnic wear"; "fashion trends";
      "custom clothing"; "tailoring"; "sustainable materials";
      "recycled clothing"; "fashion brands"; "streetwear" ]%string.

(** A few rows of the character database, enough to run the filter on
    Basic Latin and on the Greek letters alpha and sigma: code points
    it does not list are left unchanged and carry no case property. *)
Definition ucd_rows : UnicodeDB := {|
  ucd_tolower_full c :=
    if c =? 0x391 then [0x3B1]            (* GREEK CAPITAL LETTER ALPHA *)
    else if c =? 0x130 then [0x69; 0x307] (* LATIN CAPITAL LETTER I WITH DOT ABOVE *)
    else if c =? 0x212A then [0x6B]       (* KELVIN SIGN *)
    else [c];
  ucd_is_cased c :=
    ((65 <=? c) && (c <=? 90)) || ((97 <=? c) && (c <=? 122))
    || ((0x391 <=? c) && (c <=? 0x3A9) && negb (c =? 0x3A2))
    || ((0x3B1 <=? c) && (c <=? 0x3C9))
    || (c =? 0x130) || (c =? 0x212A);
  ucd_is_case_ignorable c :=
    (c =? 0x27) || (c =? 0x2E) || (c =? 0x3A) || (c =? 0x5E) || (c =? 0x60)
    || (c =? 0xAD) || (c =? 0x307)
|}.


(* ------------------------------------------------------------------ *)
(** * Numbers

    A score leaves a pipeline as a [numpy.float32] (or already as a
    Python [float]); either way it denotes a binary64 value, since the
    widening from binary32 is exact.  [float(x)] keeps the value and
    yields a Python [float]. *)

Inductive pynumber :=
| NumpyFloat32 (v : spec_float)
| PyFloat (v : spec_float).

Definition number_value (x : pynumber) : spec_float :=
  match x with NumpyFloat32 v => v | PyFloat v => v end.

Definition float (x : pynumber) : pynumber := PyFloat (number_value x).

(** binary64 *)
Definition float_zero : spec_float := S754_zero false.
Definition float_one : spec_float := S754_finite false 4503599627370496 (-52).
Definition float_two : spec_float := S754_finite false 4503599627370496 (-51).
Definition float_half : spec_float := S754_finite false 4503599627370496 (-53).

(** The rational a float denotes: [(-1)^s * m * 2^e] for a finite one,
    whether or not [m] and [e] are the canonical ones; none for an
    infinity or a NaN. *)
Definition float_value (v : spec_float) : option QArith_base.Q :=
  match v with
  | S754_zero _ => Some (QArith_base.Qmake 0 1)
  | S754_finite s m e =>
      let magnitude :=
        if (0 <=? e)%Z then QArith_base.Qmake (Zpos m * 2 ^ e) 1
        else QArith_base.Qmake (Zpos m) (Pos.pow 2 (Z.to_pos (- e))) in
      Some (if s then QArith_base.Qopp magnitude else magnitude)
  | S754_infinity _ | S754_nan => None
  end.

(** [0 <= x <= 1] on the value of a number. *)
Definition in_unit_interval (x : pynumber) : bool :=
  match float_value (number_value x) with
  | Some q =>
      QArith_base.Qle_bool (QArith_base.Qmake 0 1) q
      && QArith_base.Qle_bool q (QArith_base.Qmake 1 1)
  | None => false
  end.

(* ------------------------------------------------------------------ *)
(** * Pipeline results and response models *)

(** One dictionary of the list returned by the grouped NER pipeline. *)
Module NerGroup.
Record t := {
  entity_group : pystr;
  score : pynumber;
  word : pystr;
  start : Z;
  end_ : Z
}.
End NerGroup.

(** The dictionary returned by the question-answering pipeline. *)
Module QaResult.
Record t := {
  score : pynumber;
  start : Z;
  end_ : Z;
  answer : pystr
}.
(** [d["score"] = v] *)
Definition set_score (d : t) (v : pynumber) : t :=
  {| score := v; start := start d; end_ := end_ d; answer := answer d |}.
End QaResult.

Module Entity.
Record t := { word : pystr; entity_group : pystr; score : pynumber }.
End Entity.

Module NERResponse.
Record t := { entities : list Entity.t }.
End NERResponse.

Module QAResponse.
Record t := { question : pystr; answer : pystr; score : pynumber }.
End QAResponse.

Module CombinedRequest.
Record t := { text : pystr }.
End CombinedRequest.

Module CombinedResponse.
Record t := { ner : NERResponse.t; qa : QAResponse.t }.
End CombinedResponse.

(* ------------------------------------------------------------------ *)
(** * Handlers: exceptions and the record of model invocations *)

Inductive exception :=
| HTTPException (status_code : N) (detail : pystr)
| PipelineError (message : pystr).

Inductive result (A : Type) :=
| Return (a : A)
| Raise (e : exception).
Arguments Return {A} a.
Arguments Raise {A} e.

(** What a handler does to the outside world: it calls models. *)
Inductive invocation :=
| NerInvoked (text : pystr)
| QaInvoked (question context : pystr).

(** A handler runs from the invocations made so far, and either returns
    or raises; a raise abandons the rest of the handler. *)
Definition handler (A : Type) := list invocation -> result A * list invocation.

Definition ret {A} (a : A) : handler A := fun log => (Return a, log).

Definition raise {A} (e : exception) : handler A := fun log => (Raise e, log).

Definition bind {A B} (m : handler A) (k : A -> handler B) : handler B :=
  fun log =>
    match m log with
    | (Return a, log') => k a log'
    | (Raise e, log') => (Raise e, log')
    end.

Notation "x <- m ;; k" := (bind m (fun x => k))
  (at level 61, m at next level, right associativity).

Definition domain_detail : pystr :=
  py ("The input text does not match the allowed domains. " ++
      "Please provide a query related to clothing, fashion, or accessories.").

Section Handlers.
Context {db : UnicodeDB}.
(** The two pipelines, loaded once at start-up and frozen. *)
Variable ner_pipeline : pystr -> result (list NerGroup.t).
Variable qa_pipeline : pystr -> pystr -> result QaResult.t.

(** [ner_pipeline(text)] *)
Definition call_ner (text : pystr) : handler (list NerGroup.t) :=
  fun log => (ner_pipeline text, log ++ [NerInvoked text]).

(** [qa_pipeline(question=..., context=...)] *)
Definition call_qa (question context : pystr) : handler QaResult.t :=
  fun log => (qa_pipeline question context, log ++ [QaInvoked question context]).

(** One element of the list comprehension. *)
Definition format_entity (entity : NerGroup.t) : Entity.t :=
  {| Entity.word := NerGroup.word entity;
     Entity.entity_group := NerGroup.entity_group entity;
     Entity.score := float (NerGroup.score entity) |}.

(** [POST /process/] *)
Definition process_request (request : CombinedRequest.t) : handler CombinedResponse.t :=
  let input_text := CombinedRequest.text request in
  if negb (is_text_in_allowed_domain input_text allowed_domains) then
    raise (HTTPException 400 domain_detail)
  else
    ner_entities <- call_ner input_text ;;
    let formatted_entities := List.map format_entity ner_entities in
    let ner_response := {| NERResponse.entities := formatted_entities |} in
    qa_result <- call_qa input_text input_text ;;
    let qa_result :=
      QaResult.set_score qa_result (float (QaResult.score qa_result)) in
    let qa_response :=
      {| QAResponse.question := input_text;
         QAResponse.answer := QaResult.answer qa_result;
         QAResponse.score := QaResult.score qa_result |} in
    ret {| CombinedResponse.ner := ner_response;
           CombinedResponse.qa := qa_response |}.

(** [GET /]: a dictionary with one key. *)
Definition root : handler (list (pystr * pystr)) :=
  ret [(py "message", py "Welcome to the filtered NER and QA API!")].

End Handlers.

(** The response that the two pipeline results determine: what the
    handler is expected to assemble. *)
Definition combined (input_text : pystr) (ner_entities : list NerGroup.t)
    (qa_result : QaResult.t) : CombinedResponse.t :=
  {| CombinedResponse.ner :=
       {| NERResponse.entities := List.map format_entity ner_entities |};
     CombinedResponse.qa :=
       {| QAResponse.question := input_text;
          QAResponse.answer := QaResult.answer qa_result;
          QAResponse.score := float (QaResult.score qa_result) |} |}.

(* ------------------------------------------------------------------ *)
(** * Stand-ins for the pipelines, to run the handler on examples *)

(** Finds one organisation at the start of the text, with confidence
    one half. *)
Definition sample_ner (text : pystr) : result (list NerGroup.t) :=
  Return [ {| NerGroup.entity_group := py "ORG";
              NerGroup.score := NumpyFloat32 float_half;
              NerGroup.word := firstn 4 text;
              NerGroup.start := 0;
              NerGroup.end_ := 4 |} ].

(** Answers with the whole context, with confidence one. *)
Definition sample_qa (question context : pystr) : result QaResult.t :=
  Return {| QaResult.score := NumpyFloat32 float_one;
            QaResult.start := 0;
            QaResult.end_ := Z.of_nat (List.length context);
            QaResult.answer := context |}.

(** A pipeline whose inference fails, as the configured ones do when
    the device runs out of memory. *)
Definition failing_ner (text : pystr) : result (list NerGroup.t) :=
  Raise (PipelineError (py "CUDA out of memory")).

Definition failing_qa (question context : pystr) : result QaResult.t :=
  Raise (PipelineError (py "CUDA out of memory")).

(* ------------------------------------------------------------------ *)
(** * Basic Latin, for stating what the filter does with letter case *)

Definition is_capital (c : N) : bool := (65 <=? c) && (c <=? 90).

Definition ascii_tolower (c : N) : N := if is_capital c then c + 32 else c.

(** The text with A-Z replaced by a-z. *)
Definition ascii_lower (s : pystr) : pystr := List.map ascii_tolower s.

Definition is_ascii (s : pystr) : bool := forallb (fun c => c <? 128) s.

Definition has_capital (s : pystr) : bool := existsb is_capital s.

(** What every version of the character database satisfies: no code
    point outside Basic Latin lowers to one of A-Z. *)
Definition lowers_to_no_capital (db : UnicodeDB) : Prop :=
  forall c d, 128 <= c -> In d (ucd_tolower_full c) -> is_capital d = false.

(* ------------------------------------------------------------------ *)
(** * Package start-up ([app/__init__.py])

    [os.environ] is a mapping from names to values; the module sets a
    default for [APP_ENV] and prints one line. *)

Definition environ := list (pystr * pystr).

Fixpoint str_eqb (a b : pystr) : bool :=
  match a, b with
  | [], [] => true
  | c :: a', d :: b' => (c =? d) && str_eqb a' b'
  | _, _ => false
  end.

(** [os.environ.get(key)]: [None] where [os.environ[key]] raises
    [KeyError]. *)
Definition environ_get (env : environ) (key : pystr) : option pystr :=
  option_map snd (List.find (fun item => str_eqb (fst item) key) env).

(** [os.environ.setdefault(key, default)], the mapping afterwards. *)
Definition setdefault (env : environ) (key default : pystr) : environ :=
  match environ_get env key with
  | Some _ => env
  | None => env ++ [(key, default)]
  end.

(** [print(line)] on a standard output holding [stdout]: what it holds
    afterwards, or [None] when the call raises (the stream cannot
    encode the line, is closed, ...).  The stream belongs to the
    process that imports the package, so [print] is a parameter. *)
Definition printer := pystr -> pystr -> option pystr.

(** A standard output in UTF-8 with the strict error handler: a lone
    surrogate, which is how [os.environ] holds an undecodable byte,
    cannot be written. *)
Definition strict_utf8_print : printer :=
  fun line stdout =>
    if forallb (fun c => negb ((0xD800 <=? c) && (c <=? 0xDFFF))) line
    then Some (stdout ++ line ++ [10])
    else None.

Inductive startup :=
| Started (stdout : pystr)
| RaisedKeyError
| RaisedByPrint.

(** The body of the module after its imports: the environment it
    leaves, which [setdefault] has updated by the time anything can
    raise, and how the body ends. *)
Definition package_init (print : printer) (env : environ) (stdout : pystr)
    : environ * startup :=
  let env := setdefault env (py "APP_ENV") (py "development") in
  (env,
   match environ_get env (py "APP_ENV") with
   | None => RaisedKeyError
   | Some mode =>
       match print (py "Running in " ++ mode ++ py " mode.") stdout with
       | Some stdout' => Started stdout'
       | None => RaisedByPrint
       end
   end).

(* ------------------------------------------------------------------ *)
(** * Substring search *)

Lemma startswith_spec (s sub : pystr) :
  startswith s sub = true <-> exists post, s = sub ++ post.
Proof.
  revert s; induction sub as [|c sub IH]; intros s; simpl.
  - split; [intros _; now exists s | reflexivity].
  - destruct s as [|d s].
    + split; [discriminate | intros [post H]; discriminate].
    + rewrite andb_true_iff, N.eqb_eq, IH. split.
      * intros [-> [post ->]]. now exists post.
      * intros [post H]. injection H as -> ->. split; [reflexivity | now exists post].
Qed.

Lemma str_contains_spec (s sub : pystr) :
  str_contains s sub = true <-> substring sub s.
Proof.
  unfold substring. induction s as [|d s IH]; simpl.
  - rewrite orb_false_r, startswith_spec. split.
    + intros [post H]. now exists [], post.
    + intros [pre [post H]]. destruct pre; simpl in H.
      * now exists post.
      * discriminate.
  - rewrite orb_true_iff, startswith_spec, IH. split.
    + intros [[post H] | [pre [post H]]].
      * now exists [], post.
      * exists (d :: pre), post. simpl. now f_equal.
    + intros [[|x pre] [post H]]; simpl in H.
      * left. now exists post.
      * right. injection H as _ H. now exists pre, post.
Qed.

Lemma substring_refl (s : pystr) : substring s s.
Proof. exists [], []. simpl. now rewrite app_nil_r. Qed.

Lemma substring_trans (a b c : pystr) :
  substring a b -> substring b c -> substring a c.
Proof.
  intros [p1 [q1 ->]] [p2 [q2 ->]]. exists (p2 ++ p1), (q1 ++ q2).
  now rewrite <- !app_assoc.
Qed.

Lemma substring_app (sub s pre post : pystr) :
  substring sub s -> substring sub (pre ++ s ++ post).
Proof.
  intros H. eapply substring_trans; [exact H | now exists pre, post].
Qed.

Lemma substring_nil_inv (sub : pystr) : substring sub [] -> sub = [].
Proof.
  intros [pre [post H]]. symmetry in H.
  apply app_eq_nil in H as [_ H]. now apply app_eq_nil in H as [H _].
Qed.

Section FilterFacts.
Context {db : UnicodeDB}.

Lemma filter_true_iff (text : pystr) (domains : list pystr) :
  is_text_in_allowed_domain text domains = true <->
  exists domain, In domain domains /\ substring domain (lower text).
Proof.
  induction domains as [|d ds IH]; simpl.
  - split; [discriminate | intros [k [[] _]]].
  - destruct (str_contains (lower text) d) eqn:E.
    + split; [intros _ | reflexivity].
      exists d. split; [now left | now apply str_contains_spec].
    + rewrite IH. split.
      * intros [k [Hin Hk]]. exists k. split; [now right | exact Hk].
      * intros [k [[<- | Hin] Hk]].
        -- apply str_contains_spec in Hk. congruence.
        -- now exists k.
Qed.

Lemma filter_false_iff (text : pystr) (domains : list pystr) :
  is_text_in_allowed_domain text domains = false <->
  forall domain, In domain domains -> ~ substring domain (lower text).
Proof.
  rewrite <- not_true_iff_false, filter_true_iff. split.
  - intros H k Hin Hk. apply H. now exists k.
  - intros H [k [Hin Hk]]. exact (H k Hin Hk).
Qed.

Lemma matching_domain_filter (text : pystr) (domains : list pystr) :
  is_text_in_allowed_domain text domains =
  match matching_domain text domains with Some _ => true | None => false end.
Proof.
  induction domains as [|d ds IH]; simpl; [reflexivity|].
  now destruct (str_contains (lower text) d).
Qed.

Lemma lower_nil : lower [] = [].
Proof. reflexivity. Qed.

End FilterFacts.

(* ------------------------------------------------------------------ *)
(** * How [lower] depends on the surrounding text *)

Section LowerFacts.
Context {db : UnicodeDB}.

Lemma do_lower_in_nil (before rest : list N) :
  do_lower_in before rest [] = do_lower before rest.
Proof.
  revert before; induction rest as [|c rest IH]; intros before; simpl.
  - reflexivity.
  - now rewrite app_nil_r, IH.
Qed.

Lemma do_lower_app (before x y : list N) :
  do_lower before (x ++ y) = do_lower_in before x y ++ do_lower (rev x ++ before) y.
Proof.
  revert before; induction x as [|c x IH]; intros before; simpl.
  - reflexivity.
  - rewrite IH, <- !app_assoc. reflexivity.
Qed.

(** The lowered text, cut where the original is cut in three. *)
Lemma lower_app3 (p t s : pystr) :
  lower (p ++ t ++ s) =
  do_lower_in [] p (t ++ s) ++ do_lower_in (rev p) t s ++ do_lower (rev t ++ rev p) s.
Proof.
  unfold lower. rewrite do_lower_app, app_nil_r, do_lower_app. reflexivity.
Qed.

Lemma eq_upto_sigma_refl (l : list N) : Forall2 eq_upto_sigma l l.
Proof. induction l; constructor; [now left | assumption]. Qed.

(** One code point: its image depends on the context only between the
    two forms of sigma. *)
Lemma lower_ucs4_context (b1 a1 b2 a2 : list N) (c : N) :
  Forall2 eq_upto_sigma (lower_ucs4 b1 c a1) (lower_ucs4 b2 c a2).
Proof.
  unfold lower_ucs4. destruct (c =? CAPITAL_SIGMA).
  - constructor; [|constructor]. right.
    unfold handle_capital_sigma.
    split; repeat match goal with |- context [if ?b then _ else _] => destruct b end;
      reflexivity.
  - apply eq_upto_sigma_refl.
Qed.

Lemma do_lower_in_context (t b1 a1 b2 a2 : list N) :
  Forall2 eq_upto_sigma (do_lower_in b1 t a1) (do_lower_in b2 t a2).
Proof.
  revert b1 b2; induction t as [|c t IH]; intros b1 b2; simpl.
  - constructor.
  - apply Forall2_app; [apply lower_ucs4_context | apply IH].
Qed.

Lemma sigma_free_upto (k k' : pystr) :
  sigma_free k = true -> Forall2 eq_upto_sigma k k' -> k' = k.
Proof.
  intros Hk H. induction H as [|a b k k' Hab _ IH]; [reflexivity|].
  simpl in Hk. apply andb_true_iff in Hk as [Ha Hk].
  f_equal; [|now apply IH].
  destruct Hab as [-> | [Hs _]]; [reflexivity|].
  rewrite Hs in Ha. discriminate.
Qed.

Lemma substring_upto_sigma (k l l' : pystr) :
  sigma_free k = true -> Forall2 eq_upto_sigma l l' ->
  substring k l -> substring k l'.
Proof.
  intros Hk H [pre [post ->]].
  apply Forall2_app_inv_l in H as [pre' [rest' [_ [H ->]]]].
  apply Forall2_app_inv_l in H as [k' [post' [H [_ ->]]]].
  rewrite (sigma_free_upto k k' Hk H). now exists pre', post'.
Qed.

(** A sigma-free keyword found in [lower t] is found again when [t]
    sits inside a longer text. *)
Lemma substring_lower_extend (k p t s : pystr) :
  sigma_free k = true ->
  substring k (lower t) -> substring k (lower (p ++ t ++ s)).
Proof.
  intros Hk H. rewrite lower_app3. apply substring_app.
  apply (substring_upto_sigma k (do_lower_in [] t [])); trivial.
  - apply do_lower_in_context.
  - now rewrite do_lower_in_nil.
Qed.

Lemma tolower_full_uncapitalised (c : N) :
  (c <? 128) && negb ((65 <=? c) && (c <=? 90)) = true ->
  tolower_full c = [c].
Proof.
  intros H. apply andb_true_iff in H as [H1 H2]. unfold tolower_full.
  rewrite H1. apply negb_true_iff in H2. now rewrite H2.
Qed.

(** Lower-case Basic Latin is a fixed point of [lower] in any context. *)
Lemma do_lower_in_uncapitalised (k before after : list N) :
  ascii_uncapitalised k = true -> do_lower_in before k after = k.
Proof.
  revert before; induction k as [|c k IH]; intros before Hk; simpl.
  - reflexivity.
  - simpl in Hk. apply andb_true_iff in Hk as [Hc Hk].
    rewrite (IH _ Hk). unfold lower_ucs4.
    assert ((c =? CAPITAL_SIGMA) = false) as ->.
    { apply andb_true_iff in Hc as [Hc _]. apply N.ltb_lt in Hc.
      apply N.eqb_neq. unfold CAPITAL_SIGMA. lia. }
    now rewrite (tolower_full_uncapitalised c Hc).
Qed.

(** So a lower-case Basic Latin word of the text is still there after
    [lower]. *)
Lemma substring_lower_uncapitalised (k text : pystr) :
  ascii_uncapitalised k = true -> substring k text -> substring k (lower text).
Proof.
  intros Hk [pre [post ->]]. rewrite lower_app3.
  rewrite (do_lower_in_uncapitalised k _ _ Hk).
  eexists _, _. reflexivity.
Qed.

End LowerFacts.

(* ------------------------------------------------------------------ *)
(** * The configured keywords *)

Lemma allowed_domains_nonempty_keywords :
  forall domain, In domain allowed_domains -> domain <> [].
Proof.
  intros domain Hin ->. revert Hin. vm_compute.
  intros H. repeat (destruct H as [H | H]; [discriminate H|]). exact H.
Qed.

Lemma allowed_domains_sigma_free : forallb sigma_free allowed_domains = true.
Proof. vm_compute. reflexivity. Qed.

Lemma caps_configured : In (py "caps") allowed_domains.
Proof. vm_compute. do 30 right. left. reflexivity. Qed.

Lemma cap_not_configured : ~ In (py "cap") allowed_domains.
Proof.
  vm_compute. intros H.
  repeat (destruct H as [H | H]; [discriminate H|]). exact H.
Qed.

(** The filter on a few texts. *)
Example shoes_accepted :
  @is_text_in_allowed_domain ucd_rows (py "I need new running shoes") allowed_domains
  = true.
Proof. vm_compute. reflexivity. Qed.

Example stock_market_rejected :
  @is_text_in_allowed_domain ucd_rows (py "The stock market fell today") allowed_domains
  = false.
Proof. vm_compute. reflexivity. Qed.

Example capital_rejected :
  @is_text_in_allowed_domain ucd_rows (py "What is the capital of France?")
    allowed_domains = false.
Proof. vm_compute. reflexivity. Qed.

(** The configured keyword is the plural "hoodies". *)
Example hoodie_rejected :
  @is_text_in_allowed_domain ucd_rows (py "I love my new Nike hoodie") allowed_domains
  = false.
Proof. vm_compute. reflexivity. Qed.

Example upper_case_capsize_accepted :
  @matching_domain ucd_rows (py "My boat might CAPSIZE") allowed_domains
  = Some (py "caps").
Proof. vm_compute. reflexivity. Qed.

(** [lower] on the two Greek texts used below. *)
Example lower_final_sigma : @lower ucd_rows [0x391; 0x3A3] = [0x3B1; 0x3C2].
Proof. reflexivity. Qed.

Example lower_medial_sigma :
  @lower ucd_rows [0x391; 0x3A3; 0x391] = [0x3B1; 0x3C3; 0x3B1].
Proof. reflexivity. Qed.

(* ------------------------------------------------------------------ *)
(** * The domain filter: properties *)

(** C1 (as amended).  For every text and every keyword list,
    [is_text_in_allowed_domain] returns true exactly when some keyword
    of the list occurs as a substring of the lowered text, and false
    exactly when none does; when no keyword of the list is the empty
    string, it returns false for the empty text. *)
Theorem filter_decides_keyword_occurrence
    (db : UnicodeDB) (text : pystr) (domains : list pystr) :
  (is_text_in_allowed_domain text domains = true <->
     exists domain, In domain domains /\ substring domain (lower text))
  /\ (is_text_in_allowed_domain text domains = false <->
     forall domain, In domain domains -> ~ substring domain (lower text))
  /\ ((forall domain, In domain domains -> domain <> []) ->
      is_text_in_allowed_domain [] domains = false).
Proof.
  split; [apply filter_true_iff|]. split; [apply filter_false_iff|].
  intros Hne. apply filter_false_iff. intros k Hin Hsub.
  rewrite lower_nil in Hsub. apply substring_nil_inv in Hsub.
  exact (Hne k Hin Hsub).
Qed.

Lemma filter_decides_keyword_occurrence_configured :
  (forall domain, In domain allowed_domains -> domain <> [])
  /\ @is_text_in_allowed_domain ucd_rows [] allowed_domains = false.
Proof.
  split; [exact allowed_domains_nonempty_keywords|].
  apply (proj2 (proj2 (filter_decides_keyword_occurrence
                         ucd_rows (py "I need new running shoes") allowed_domains))).
  exact allowed_domains_nonempty_keywords.
Defined.

(** C1 as first stated fails: a list may hold the empty keyword, which
    occurs in every text, the empty one included. *)
Lemma empty_keyword_accepts_empty_text :
  [py ""] <> []
  /\ @is_text_in_allowed_domain ucd_rows (py "") [py ""] = true.
Proof. split; [discriminate | reflexivity]. Qed.

(** C6 (as amended).  Every text containing "capsize" passes the filter
    against the configured list: the keyword it matches inside that
    word is the configured keyword "caps". *)
Theorem capsize_matches_caps (db : UnicodeDB) (text : pystr) :
  substring (py "capsize") text ->
  In (py "caps") allowed_domains
  /\ substring (py "caps") (lower text)
  /\ is_text_in_allowed_domain text allowed_domains = true.
Proof.
  intros H. split; [exact caps_configured|].
  assert (Hc : substring (py "caps") (lower text)).
  { apply (substring_trans _ (py "capsize")).
    - exists [], (py "ize"). reflexivity.
    - now apply substring_lower_uncapitalised. }
  split; [exact Hc|].
  apply filter_true_iff. exists (py "caps"). split; [exact caps_configured | exact Hc].
Qed.

Lemma capsize_matches_caps_boat :
  substring (py "capsize") (py "The boat may capsize")
  /\ @is_text_in_allowed_domain ucd_rows (py "The boat may capsize") allowed_domains = true.
Proof.
  assert (H : substring (py "capsize") (py "The boat may capsize")).
  { exists (py "The boat may "), []. reflexivity. }
  split; [exact H|].
  exact (proj2 (proj2 (capsize_matches_caps ucd_rows (py "The boat may capsize") H))).
Defined.

(** C6 as first stated fails: "cap" is not a configured keyword, the
    loop returns at "caps", and the text "cap" alone is rejected. *)
Lemma capsize_not_matched_by_cap :
  ~ In (py "cap") allowed_domains
  /\ @matching_domain ucd_rows (py "capsize") allowed_domains = Some (py "caps")
  /\ @is_text_in_allowed_domain ucd_rows (py "cap") allowed_domains = false.
Proof.
  split; [exact cap_not_configured|]. split; vm_compute; reflexivity.
Qed.

(** C9 (as amended).  For every keyword list none of whose keywords
    contains a lower-case sigma (U+03C3 or U+03C2), the filter is
    monotone under extension: if it accepts [t] it accepts
    [p + t + s]. *)
Theorem filter_monotone_under_extension
    (db : UnicodeDB) (domains : list pystr) (t p s : pystr) :
  forallb sigma_free domains = true ->
  is_text_in_allowed_domain t domains = true ->
  is_text_in_allowed_domain (p ++ t ++ s) domains = true.
Proof.
  intros Hfree Ht. apply filter_true_iff in Ht as [k [Hin Hk]].
  apply filter_true_iff. exists k. split; [exact Hin|].
  apply substring_lower_extend; [|exact Hk].
  rewrite forallb_forall in Hfree. now apply Hfree.
Qed.

Lemma filter_monotone_under_extension_shoes :
  forallb sigma_free allowed_domains = true
  /\ @is_text_in_allowed_domain ucd_rows (py "SHOES") allowed_domains = true
  /\ @is_text_in_allowed_domain ucd_rows
       (py "I need new " ++ py "SHOES" ++ py " today") allowed_domains = true.
Proof.
  split; [exact allowed_domains_sigma_free|].
  assert (H : @is_text_in_allowed_domain ucd_rows (py "SHOES") allowed_domains = true)
    by (vm_compute; reflexivity).
  split; [exact H|].
  exact (filter_monotone_under_extension ucd_rows allowed_domains (py "SHOES")
           (py "I need new ") (py " today") allowed_domains_sigma_free H).
Defined.

(** The configured list has no sigma, so the handler's filter is
    monotone. *)
Corollary configured_filter_monotone (db : UnicodeDB) (t p s : pystr) :
  is_text_in_allowed_domain t allowed_domains = true ->
  is_text_in_allowed_domain (p ++ t ++ s) allowed_domains = true.
Proof.
  intros Ht. apply filter_true_iff in Ht as [k [Hin Hk]].
  apply filter_true_iff. exists k. split; [exact Hin|].
  apply substring_lower_extend; [|exact Hk].
  pose proof allowed_domains_sigma_free as Hfree.
  rewrite forallb_forall in Hfree. now apply Hfree.
Qed.

(** C9 as first stated fails on a keyword ending in final sigma: the
    text "ΑΣ" lowers to "ας" and is accepted for the keyword "ας",
    while "ΑΣΑ" lowers to "ασα" and is rejected. *)
Lemma final_sigma_breaks_monotonicity :
  @is_text_in_allowed_domain ucd_rows [0x391; 0x3A3] [[0x3B1; 0x3C2]] = true
  /\ @is_text_in_allowed_domain ucd_rows
       ([] ++ [0x391; 0x3A3] ++ [0x391]) [[0x3B1; 0x3C2]] = false.
Proof. split; vm_compute; reflexivity. Qed.

(* ------------------------------------------------------------------ *)
(** * The request handler *)

Section HandlerFacts.
Context {db : UnicodeDB}.
Variable ner_pipeline : pystr -> result (list NerGroup.t).
Variable qa_pipeline : pystr -> pystr -> result QaResult.t.

Lemma process_rejected (request : CombinedRequest.t) (log : list invocation) :
  is_text_in_allowed_domain (CombinedRequest.text request) allowed_domains = false ->
  process_request ner_pipeline qa_pipeline request log = (Raise (HTTPException 400 domain_detail), log).
Proof. intros H. unfold process_request. rewrite H. reflexivity. Qed.

Lemma process_accepted (request : CombinedRequest.t) (log : list invocation) :
  let input_text := CombinedRequest.text request in
  is_text_in_allowed_domain input_text allowed_domains = true ->
  process_request ner_pipeline qa_pipeline request log =
  match ner_pipeline input_text with
  | Raise e => (Raise e, log ++ [NerInvoked input_text])
  | Return ner_entities =>
      match qa_pipeline input_text input_text with
      | Raise e =>
          (Raise e, log ++ [NerInvoked input_text; QaInvoked input_text input_text])
      | Return qa_result =>
          (Return (combined input_text ner_entities qa_result),
           log ++ [NerInvoked input_text; QaInvoked input_text input_text])
      end
  end.
Proof.
  intros input_text H. unfold process_request. fold input_text. rewrite H.
  unfold bind, call_ner, call_qa, ret. simpl.
  destruct (ner_pipeline input_text) as [ents | e]; [|reflexivity].
  rewrite <- app_assoc. simpl.
  destruct (qa_pipeline input_text input_text) as [a | e]; reflexivity.
Qed.

(** A response comes only from an accepted text on which both
    pipelines returned, and it is the one they determine. *)
Lemma process_returns_inv (request : CombinedRequest.t) (log : list invocation)
    (response : CombinedResponse.t) :
  fst (process_request ner_pipeline qa_pipeline request log) = Return response ->
  let input_text := CombinedRequest.text request in
  is_text_in_allowed_domain input_text allowed_domains = true
  /\ exists ner_entities qa_result,
       ner_pipeline input_text = Return ner_entities
       /\ qa_pipeline input_text input_text = Return qa_result
       /\ response = combined input_text ner_entities qa_result.
Proof.
  intros H input_text.
  destruct (is_text_in_allowed_domain input_text allowed_domains) eqn:E.
  - split; [reflexivity|]. rewrite (process_accepted request log E) in H.
    fold input_text in H.
    destruct (ner_pipeline input_text) as [ents | e]; [|discriminate H].
    destruct (qa_pipeline input_text input_text) as [a | e]; [|discriminate H].
    simpl in H. injection H as <-. now exists ents, a.
  - rewrite (process_rejected request log E) in H. discriminate H.
Qed.

End HandlerFacts.

(** [in_unit_interval] reads the value, not the encoding. *)
Example in_unit_interval_values :
  in_unit_interval (PyFloat float_one) = true
  /\ in_unit_interval (PyFloat float_half) = true
  /\ in_unit_interval (PyFloat float_zero) = true
  /\ in_unit_interval (PyFloat (S754_finite false 1 0)) = true
  /\ in_unit_interval (PyFloat (S754_finite false 1 (-1))) = true
  /\ in_unit_interval (PyFloat float_two) = false
  /\ in_unit_interval (PyFloat (S754_finite false 1152921504606846976 (-53))) = false
  /\ in_unit_interval (PyFloat (S754_finite true 1 (-1))) = false
  /\ in_unit_interval (PyFloat (S754_infinity false)) = false
  /\ in_unit_interval (PyFloat S754_nan) = false.
Proof. repeat split; vm_compute; reflexivity. Qed.


Lemma detail_names_topics :
  substring (py "clothing") domain_detail
  /\ substring (py "fashion") domain_detail
  /\ substring (py "accessories") domain_detail.
Proof. repeat split; apply str_contains_spec; vm_compute; reflexivity. Qed.

(** The handler when a stage fails. *)
Example ner_failure_stops_the_handler :
  let request := {| CombinedRequest.text := py "I need new running shoes" |} in
  @process_request ucd_rows failing_ner sample_qa request []
  = (Raise (PipelineError (py "CUDA out of memory")),
     [NerInvoked (CombinedRequest.text request)]).
Proof. vm_compute. reflexivity. Qed.

Example qa_failure_stops_the_handler :
  let request := {| CombinedRequest.text := py "I need new running shoes" |} in
  @process_request ucd_rows sample_ner failing_qa request []
  = (Raise (PipelineError (py "CUDA out of memory")),
     [NerInvoked (CombinedRequest.text request);
      QaInvoked (CombinedRequest.text request) (CombinedRequest.text request)]).
Proof. vm_compute. reflexivity. Qed.

(* ------------------------------------------------------------------ *)
(** * The request handler: properties *)

(** C2.  A request whose text fails the filter against the configured
    list ends in [HTTPException] with status 400, whose detail names
    clothing, fashion and accessories; the record of invocations is
    left as it was, so neither pipeline has been called. *)
Theorem rejected_request_raises_400
    (db : UnicodeDB)
    (ner_pipeline : pystr -> result (list NerGroup.t))
    (qa_pipeline : pystr -> pystr -> result QaResult.t)
    (request : CombinedRequest.t) (log : list invocation) :
  is_text_in_allowed_domain (CombinedRequest.text request) allowed_domains = false ->
  process_request ner_pipeline qa_pipeline request log
    = (Raise (HTTPException 400 domain_detail), log)
  /\ substring (py "clothing") domain_detail
  /\ substring (py "fashion") domain_detail
  /\ substring (py "accessories") domain_detail.
Proof.
  intros H. split; [now apply process_rejected | exact detail_names_topics].
Qed.

Lemma rejected_request_raises_400_capital :
  let request := {| CombinedRequest.text := py "What is the capital of France?" |} in
  @is_text_in_allowed_domain ucd_rows (CombinedRequest.text request) allowed_domains = false
  /\ @process_request ucd_rows sample_ner sample_qa request []
     = (Raise (HTTPException 400 domain_detail), []).
Proof.
  intros request.
  assert (H : @is_text_in_allowed_domain ucd_rows
                (CombinedRequest.text request) allowed_domains = false)
    by (vm_compute; reflexivity).
  split; [exact H|].
  exact (proj1 (rejected_request_raises_400 ucd_rows sample_ner sample_qa request [] H)).
Defined.

(** C3.  For an accepted request the handler ends in exactly one of
    three ways: the NER pipeline raises, and that exception leaves the
    handler before the QA pipeline is called; the QA pipeline raises,
    and that exception leaves the handler; or both return and the
    response carries both results.  No response is built from one
    stage alone. *)
Theorem accepted_request_all_or_nothing
    (db : UnicodeDB)
    (ner_pipeline : pystr -> result (list NerGroup.t))
    (qa_pipeline : pystr -> pystr -> result QaResult.t)
    (request : CombinedRequest.t) (log : list invocation) :
  let input_text := CombinedRequest.text request in
  let outcome := process_request ner_pipeline qa_pipeline request log in
  is_text_in_allowed_domain input_text allowed_domains = true ->
  (exists e,
      ner_pipeline input_text = Raise e
      /\ outcome = (Raise e, log ++ [NerInvoked input_text]))
  \/ (exists ner_entities e,
      ner_pipeline input_text = Return ner_entities
      /\ qa_pipeline input_text input_text = Raise e
      /\ outcome =
         (Raise e, log ++ [NerInvoked input_text; QaInvoked input_text input_text]))
  \/ (exists ner_entities qa_result,
      ner_pipeline input_text = Return ner_entities
      /\ qa_pipeline input_text input_text = Return qa_result
      /\ outcome =
         (Return (combined input_text ner_entities qa_result),
          log ++ [NerInvoked input_text; QaInvoked input_text input_text])).
Proof.
  intros input_text outcome H. subst outcome.
  rewrite (process_accepted ner_pipeline qa_pipeline request log H).
  fold input_text.
  destruct (ner_pipeline input_text) as [ents | e] eqn:En.
  - destruct (qa_pipeline input_text input_text) as [a | e] eqn:Eq.
    + right; right. now exists ents, a.
    + right; left. now exists ents, e.
  - left. now exists e.
Qed.


Lemma accepted_request_all_or_nothing_shoes :
  let request := {| CombinedRequest.text := py "I need new running shoes" |} in
  let input_text := CombinedRequest.text request in
  @is_text_in_allowed_domain ucd_rows input_text allowed_domains = true
  /\ exists ner_entities qa_result,
       @process_request ucd_rows sample_ner sample_qa request []
       = (Return (combined input_text ner_entities qa_result),
          [NerInvoked input_text; QaInvoked input_text input_text]).
Proof.
  intros request input_text.
  assert (H : @is_text_in_allowed_domain ucd_rows input_text allowed_domains = true)
    by (vm_compute; reflexivity).
  split; [exact H|].
  destruct (accepted_request_all_or_nothing ucd_rows sample_ner sample_qa request [] H)
    as [[e [He _]] | [[ents [e [_ [He _]]]] | [ents [a [_ [_ Ho]]]]]].
  - discriminate He.
  - discriminate He.
  - exists ents, a. exact Ho.
Defined.







(** C8.  [GET /] returns, whatever ran before and without calling a
    model, the one-key dictionary
    [{"message": "Welcome to the filtered NER and QA API!"}]. *)
Theorem root_returns_welcome (log : list invocation) :
  root log
  = (Return [(py "message", py "Welcome to the filtered NER and QA API!")], log).
Proof. reflexivity. Qed.

(** C10.  In a response, the entities are those the NER pipeline
    returned, one for one and in order: same length, and at each index
    the same [word], the same [entity_group], and as [score] the Python
    float with the value of the pipeline's score. *)
Theorem response_entities_copied
    (db : UnicodeDB)
    (ner_pipeline : pystr -> result (list NerGroup.t))
    (qa_pipeline : pystr -> pystr -> result QaResult.t)
    (request : CombinedRequest.t) (log : list invocation)
    (response : CombinedResponse.t) :
  fst (process_request ner_pipeline qa_pipeline request log) = Return response ->
  exists ner_entities,
    ner_pipeline (CombinedRequest.text request) = Return ner_entities
    /\ List.length (NERResponse.entities (CombinedResponse.ner response))
       = List.length ner_entities
    /\ forall i,
         match nth_error ner_entities i,
               nth_error (NERResponse.entities (CombinedResponse.ner response)) i with
         | Some found, Some entity =>
             Entity.word entity = NerGroup.word found
             /\ Entity.entity_group entity = NerGroup.entity_group found
             /\ Entity.score entity = PyFloat (number_value (NerGroup.score found))
         | None, None => True
         | _, _ => False
         end.
Proof.
  intros H. apply process_returns_inv in H as [_ [ents [a [En [_ ->]]]]].
  exists ents. split; [exact En|]. simpl. split; [apply length_map|].
  intros i. rewrite nth_error_map.
  destruct (nth_error ents i) as [found|]; simpl; [|exact I].
  repeat split.
Qed.

Lemma response_entities_copied_shoes :
  let request := {| CombinedRequest.text := py "I need new running shoes" |} in
  exists response ner_entities,
    fst (@process_request ucd_rows sample_ner sample_qa request []) = Return response
    /\ sample_ner (CombinedRequest.text request) = Return ner_entities
    /\ List.length (NERResponse.entities (CombinedResponse.ner response))
       = List.length ner_entities.
Proof.
  intros request.
  eexists.
  assert (H : fst (@process_request ucd_rows sample_ner sample_qa request [])
              = Return _) by (vm_compute; reflexivity).
  destruct (response_entities_copied ucd_rows sample_ner sample_qa request [] _ H)
    as [ents [En [Hlen _]]].
  exists ents. split; [exact H|]. split; [exact En | exact Hlen].
Defined.

(* ------------------------------------------------------------------ *)
(** * The filter and letter case *)

Lemma substring_length (sub s : pystr) :
  substring sub s -> (List.length sub <= List.length s)%nat.
Proof. intros [pre [post ->]]. rewrite !length_app. lia. Qed.

Lemma is_capital_ascii_tolower (c : N) : is_capital (ascii_tolower c) = false.
Proof.
  unfold ascii_tolower. destruct (is_capital c) eqn:E; [|exact E].
  unfold is_capital in *. apply andb_true_iff in E as [E1 E2].
  apply N.leb_le in E1, E2. apply andb_false_iff. right. apply N.leb_gt. lia.
Qed.

Section CaseFacts.
Context {db : UnicodeDB}.

Lemma tolower_full_ascii (c : N) :
  (c <? 128) = true -> tolower_full c = [ascii_tolower c].
Proof.
  intros H. unfold tolower_full, ascii_tolower, is_capital. rewrite H.
  now destruct ((65 <=? c) && (c <=? 90)).
Qed.

Lemma lower_ucs4_ascii (before after : list N) (c : N) :
  (c <? 128) = true -> lower_ucs4 before c after = [ascii_tolower c].
Proof.
  intros H. unfold lower_ucs4.
  assert ((c =? CAPITAL_SIGMA) = false) as ->.
  { apply N.ltb_lt in H. apply N.eqb_neq. unfold CAPITAL_SIGMA. lia. }
  now apply tolower_full_ascii.
Qed.

(** A Basic Latin slice is lowered letter by letter, whatever is around
    it. *)
Lemma do_lower_in_ascii (w before after : list N) :
  is_ascii w = true -> do_lower_in before w after = ascii_lower w.
Proof.
  revert before; induction w as [|c w IH]; intros before Hw; simpl.
  - reflexivity.
  - simpl in Hw. apply andb_true_iff in Hw as [Hc Hw].
    now rewrite (lower_ucs4_ascii _ _ c Hc), (IH _ Hw).
Qed.

Lemma lower_ascii (text : pystr) :
  is_ascii text = true -> lower text = ascii_lower text.
Proof.
  intros H. unfold lower. rewrite <- do_lower_in_nil. now apply do_lower_in_ascii.
Qed.

(** The filter looks at the text only through [lower]. *)
Lemma filter_through_lower (t1 t2 : pystr) (domains : list pystr) :
  lower t1 = lower t2 ->
  is_text_in_allowed_domain t1 domains = is_text_in_allowed_domain t2 domains.
Proof.
  intros H. induction domains as [|d ds IH]; simpl; [reflexivity|].
  now rewrite H, IH.
Qed.

Lemma handle_capital_sigma_not_capital (before after : list N) :
  is_capital (handle_capital_sigma before after) = false.
Proof.
  unfold handle_capital_sigma.
  repeat match goal with |- context [if ?b then _ else _] => destruct b end;
    reflexivity.
Qed.

Lemma lower_ucs4_no_capital (before after : list N) (c : N) :
  lowers_to_no_capital db ->
  Forall (fun d => is_capital d = false) (lower_ucs4 before c after).
Proof.
  intros Hdb. unfold lower_ucs4. destruct (c =? CAPITAL_SIGMA).
  - constructor; [apply handle_capital_sigma_not_capital | constructor].
  - destruct (c <? 128) eqn:E.
    + rewrite (tolower_full_ascii c E).
      constructor; [apply is_capital_ascii_tolower | constructor].
    + unfold tolower_full. rewrite E. apply Forall_forall. intros d Hd.
      apply (Hdb c d); [|exact Hd]. apply N.ltb_ge in E. exact E.
Qed.

Lemma do_lower_no_capital (before rest : list N) :
  lowers_to_no_capital db ->
  Forall (fun d => is_capital d = false) (do_lower before rest).
Proof.
  intros Hdb. revert before; induction rest as [|c rest IH]; intros before; simpl.
  - constructor.
  - apply Forall_app. split; [now apply lower_ucs4_no_capital | apply IH].
Qed.

(** A keyword with a capital letter occurs in no lowered text. *)
Lemma capital_keyword_absent (text domain : pystr) :
  lowers_to_no_capital db -> has_capital domain = true ->
  str_contains (lower text) domain = false.
Proof.
  intros Hdb Hcap. apply not_true_iff_false. intros H.
  apply str_contains_spec in H as [pre [post H]].
  apply existsb_exists in Hcap as [d [Hin Hd]].
  pose proof (do_lower_no_capital [] text Hdb) as Hall.
  fold (lower text) in Hall. rewrite H in Hall.
  rewrite Forall_forall in Hall.
  rewrite (Hall d) in Hd; [discriminate Hd|].
  apply in_or_app. right. apply in_or_app. now left.
Qed.

(** Two lists with the same verdict-relevant content give the same
    verdict. *)
Lemma filter_eq_of_iff (text : pystr) (domains1 domains2 : list pystr) :
  ((exists domain, In domain domains1 /\ substring domain (lower text)) <->
   (exists domain, In domain domains2 /\ substring domain (lower text))) ->
  is_text_in_allowed_domain text domains1 = is_text_in_allowed_domain text domains2.
Proof.
  intros H. rewrite <- !filter_true_iff in H.
  destruct (is_text_in_allowed_domain text domains1),
           (is_text_in_allowed_domain text domains2); try reflexivity.
  - symmetry. now apply H.
  - now apply H.
Qed.

End CaseFacts.

Lemma ucd_rows_lowers_to_no_capital : lowers_to_no_capital ucd_rows.
Proof.
  intros c d Hc Hd. simpl in Hd.
  assert (Hbig : forall x, In d [x] -> 128 <= x -> is_capital d = false).
  { intros x [<- | []] Hx. unfold is_capital. apply andb_false_iff. right.
    apply N.leb_gt. lia. }
  destruct (c =? 913); [apply (Hbig _ Hd); lia|].
  destruct (c =? 304).
  - destruct Hd as [<- | [<- | []]]; reflexivity.
  - destruct (c =? 8490); [destruct Hd as [<- | []]; reflexivity|].
    exact (Hbig _ Hd Hc).
Qed.

(* ------------------------------------------------------------------ *)
(** * The domain filter: further properties *)

(** X1.  The filter ignores the case of Basic Latin letters in the text:
    a text containing a Basic Latin word whose lower-case form is a
    keyword of the list is accepted. *)
Theorem filter_accepts_keyword_in_any_case
    (db : UnicodeDB) (text word : pystr) (domains : list pystr) :
  is_ascii word = true ->
  In (ascii_lower word) domains ->
  substring word text ->
  is_text_in_allowed_domain text domains = true.
Proof.
  intros Hw Hin [pre [post ->]]. apply filter_true_iff.
  exists (ascii_lower word). split; [exact Hin|].
  rewrite lower_app3, (do_lower_in_ascii word _ _ Hw).
  eexists _, _. reflexivity.
Qed.

Lemma filter_accepts_keyword_in_any_case_shoes :
  is_ascii (py "ShOeS") = true
  /\ In (ascii_lower (py "ShOeS")) allowed_domains
  /\ substring (py "ShOeS") (py "NEW ShOeS!")
  /\ @is_text_in_allowed_domain ucd_rows (py "NEW ShOeS!") allowed_domains = true.
Proof.
  assert (H1 : is_ascii (py "ShOeS") = true) by reflexivity.
  assert (H2 : In (ascii_lower (py "ShOeS")) allowed_domains).
  { vm_compute. do 5 right. left. reflexivity. }
  assert (H3 : substring (py "ShOeS") (py "NEW ShOeS!")).
  { exists (py "NEW "), (py "!"). reflexivity. }
  split; [exact H1|]. split; [exact H2|]. split; [exact H3|].
  exact (filter_accepts_keyword_in_any_case ucd_rows _ _ _ H1 H2 H3).
Defined.

(** X2.  Two Basic Latin texts that differ only in the case of their
    letters get the same verdict, for every keyword list. *)
Theorem filter_same_on_case_variants
    (db : UnicodeDB) (t1 t2 : pystr) (domains : list pystr) :
  is_ascii t1 = true -> is_ascii t2 = true ->
  ascii_lower t1 = ascii_lower t2 ->
  is_text_in_allowed_domain t1 domains = is_text_in_allowed_domain t2 domains.
Proof.
  intros H1 H2 H. apply filter_through_lower.
  now rewrite (lower_ascii t1 H1), (lower_ascii t2 H2).
Qed.

Lemma filter_same_on_case_variants_jeans :
  is_ascii (py "Blue JEANS") = true /\ is_ascii (py "blue jeans") = true
  /\ ascii_lower (py "Blue JEANS") = ascii_lower (py "blue jeans")
  /\ @is_text_in_allowed_domain ucd_rows (py "Blue JEANS") allowed_domains
     = @is_text_in_allowed_domain ucd_rows (py "blue jeans") allowed_domains.
Proof.
  split; [reflexivity|]. split; [reflexivity|]. split; [reflexivity|].
  exact (filter_same_on_case_variants ucd_rows (py "Blue JEANS") (py "blue jeans")
           allowed_domains eq_refl eq_refl eq_refl).
Defined.

(** X3.  Keywords must be lower-case: a keyword containing one of A-Z
    never matches, so the verdict is the same with all such keywords
    removed from the list. *)
Theorem filter_ignores_capital_keywords
    (db : UnicodeDB) (text : pystr) (domains : list pystr) :
  lowers_to_no_capital db ->
  is_text_in_allowed_domain text domains =
  is_text_in_allowed_domain text
    (List.filter (fun domain => negb (has_capital domain)) domains).
Proof.
  intros Hdb. induction domains as [|d ds IH]; simpl; [reflexivity|].
  destruct (has_capital d) eqn:E; simpl.
  - now rewrite (capital_keyword_absent text d Hdb E).
  - now rewrite IH.
Qed.

Lemma filter_ignores_capital_keywords_nike :
  lowers_to_no_capital ucd_rows
  /\ @is_text_in_allowed_domain ucd_rows (py "I like Nike") [py "Nike"; py "shoes"]
     = @is_text_in_allowed_domain ucd_rows (py "I like Nike") [py "shoes"].
Proof.
  split; [exact ucd_rows_lowers_to_no_capital|].
  exact (filter_ignores_capital_keywords ucd_rows (py "I like Nike")
           [py "Nike"; py "shoes"] ucd_rows_lowers_to_no_capital).
Defined.

(** X4.  The verdict for two keyword lists put end to end is the
    disjunction of the two verdicts. *)
Theorem filter_of_concatenated_lists
    (db : UnicodeDB) (text : pystr) (domains1 domains2 : list pystr) :
  is_text_in_allowed_domain text (domains1 ++ domains2) =
  is_text_in_allowed_domain text domains1 || is_text_in_allowed_domain text domains2.
Proof.
  induction domains1 as [|domain domains1 IH]; simpl; [reflexivity|].
  now destruct (str_contains (lower text) domain).
Qed.

(** X5.  Only the set of keywords matters: two lists with the same
    members, in any order and with any repetitions, give the same
    verdict on every text. *)
Theorem filter_depends_on_keyword_set
    (db : UnicodeDB) (text : pystr) (domains1 domains2 : list pystr) :
  (forall domain, In domain domains1 <-> In domain domains2) ->
  is_text_in_allowed_domain text domains1 = is_text_in_allowed_domain text domains2.
Proof.
  intros H. apply filter_eq_of_iff.
  split; intros [k [Hin Hk]]; exists k; (split; [now apply H | exact Hk]).
Qed.

Lemma filter_depends_on_keyword_set_reversed :
  (forall domain, In domain allowed_domains <-> In domain (rev allowed_domains))
  /\ @is_text_in_allowed_domain ucd_rows (py "warm socks") allowed_domains
     = @is_text_in_allowed_domain ucd_rows (py "warm socks") (rev allowed_domains).
Proof.
  assert (H : forall domain, In domain allowed_domains <-> In domain (rev allowed_domains))
    by (intros domain; apply in_rev).
  split; [exact H|].
  exact (filter_depends_on_keyword_set ucd_rows (py "warm socks") _ _ H).
Defined.

(** X6.  A keyword that contains another keyword of the list is
    redundant: removing it changes the verdict on no text. *)
Theorem filter_redundant_keyword
    (db : UnicodeDB) (text : pystr) (domains1 domains2 : list pystr)
    (domain shorter : pystr) :
  In shorter (domains1 ++ domains2) ->
  substring shorter domain ->
  is_text_in_allowed_domain text (domains1 ++ domain :: domains2) =
  is_text_in_allowed_domain text (domains1 ++ domains2).
Proof.
  intros Hin Hsub. apply filter_eq_of_iff. split.
  - intros [k [Hk Hocc]]. apply in_app_or in Hk as [Hk | [<- | Hk]].
    + exists k. split; [apply in_or_app; now left | exact Hocc].
    + exists shorter. split; [exact Hin|].
      exact (substring_trans _ _ _ Hsub Hocc).
    + exists k. split; [apply in_or_app; now right | exact Hocc].
  - intros [k [Hk Hocc]]. exists k. split; [|exact Hocc].
    apply in_app_or in Hk as [Hk | Hk]; apply in_or_app;
      [now left | right; now right].
Qed.

Lemma filter_redundant_keyword_fashion_trends :
  firstn 46 allowed_domains ++ py "fashion trends" :: skipn 47 allowed_domains
    = allowed_domains
  /\ In (py "fashion") (firstn 46 allowed_domains ++ skipn 47 allowed_domains)
  /\ substring (py "fashion") (py "fashion trends")
  /\ @is_text_in_allowed_domain ucd_rows (py "latest fashion trends") allowed_domains
     = @is_text_in_allowed_domain ucd_rows (py "latest fashion trends")
         (firstn 46 allowed_domains ++ skipn 47 allowed_domains).
Proof.
  assert (H0 : firstn 46 allowed_domains ++ py "fashion trends"
                 :: skipn 47 allowed_domains = allowed_domains) by reflexivity.
  assert (H1 : In (py "fashion")
                 (firstn 46 allowed_domains ++ skipn 47 allowed_domains)).
  { vm_compute. right. left. reflexivity. }
  assert (H2 : substring (py "fashion") (py "fashion trends")).
  { exists [], (py " trends"). reflexivity. }
  split; [exact H0|]. split; [exact H1|]. split; [exact H2|].
  rewrite <- H0 at 1.
  exact (filter_redundant_keyword ucd_rows (py "latest fashion trends")
           _ _ _ _ H1 H2).
Defined.

(** X7.  A Basic Latin text shorter than every keyword of the list is
    rejected. *)
Theorem filter_rejects_short_text
    (db : UnicodeDB) (text : pystr) (domains : list pystr) :
  is_ascii text = true ->
  (forall domain, In domain domains ->
     (List.length text < List.length domain)%nat) ->
  is_text_in_allowed_domain text domains = false.
Proof.
  intros Ha Hshort. apply filter_false_iff. intros k Hin Hsub.
  apply substring_length in Hsub.
  rewrite (lower_ascii text Ha) in Hsub. unfold ascii_lower in Hsub.
  rewrite length_map in Hsub. specialize (Hshort k Hin). lia.
Qed.

Lemma allowed_domains_min_length :
  forall domain, In domain allowed_domains -> (3 < List.length domain)%nat.
Proof.
  intros domain Hin.
  assert (H : forallb (fun d => Nat.ltb 3 (List.length d)) allowed_domains = true)
    by (vm_compute; reflexivity).
  rewrite forallb_forall in H. apply Nat.ltb_lt. now apply H.
Qed.

Lemma filter_rejects_short_text_hat :
  is_ascii (py "hat") = true
  /\ (forall domain, In domain allowed_domains ->
        (List.length (py "hat") < List.length domain)%nat)
  /\ @is_text_in_allowed_domain ucd_rows (py "hat") allowed_domains = false.
Proof.
  assert (H : forall domain, In domain allowed_domains ->
                (List.length (py "hat") < List.length domain)%nat)
    by exact allowed_domains_min_length.
  split; [reflexivity|]. split; [exact H|].
  exact (filter_rejects_short_text ucd_rows (py "hat") allowed_domains eq_refl H).
Defined.

(* ------------------------------------------------------------------ *)
(** * The request handler: further properties *)

(** X8.  A response is produced only for a text in which a configured
    keyword occurs once lowered. *)
Theorem response_only_for_keyword_text
    (db : UnicodeDB)
    (ner_pipeline : pystr -> result (list NerGroup.t))
    (qa_pipeline : pystr -> pystr -> result QaResult.t)
    (request : CombinedRequest.t) (log : list invocation)
    (response : CombinedResponse.t) :
  fst (process_request ner_pipeline qa_pipeline request log) = Return response ->
  exists domain,
    In domain allowed_domains
    /\ substring domain (lower (CombinedRequest.text request)).
Proof.
  intros H. apply process_returns_inv in H as [Hf _].
  now apply filter_true_iff.
Qed.

Lemma response_only_for_keyword_text_shoes :
  let request := {| CombinedRequest.text := py "I need new running shoes" |} in
  exists response domain,
    fst (@process_request ucd_rows sample_ner sample_qa request []) = Return response
    /\ In domain allowed_domains
    /\ substring domain (@lower ucd_rows (CombinedRequest.text request)).
Proof.
  intros request. eexists.
  assert (H : fst (@process_request ucd_rows sample_ner sample_qa request [])
              = Return _) by (vm_compute; reflexivity).
  destruct (response_only_for_keyword_text ucd_rows sample_ner sample_qa request [] _ H)
    as [domain [Hin Hsub]].
  exists domain. split; [exact H|]. split; [exact Hin | exact Hsub].
Defined.

(** X9.  In a response, [qa.answer] is the answer the QA pipeline
    returned for the input text, unchanged, and [qa.score] is the
    Python float with the value of the pipeline's score; the span
    offsets of the pipeline result are not passed on. *)
Theorem response_answer_copied
    (db : UnicodeDB)
    (ner_pipeline : pystr -> result (list NerGroup.t))
    (qa_pipeline : pystr -> pystr -> result QaResult.t)
    (request : CombinedRequest.t) (log : list invocation)
    (response : CombinedResponse.t) :
  fst (process_request ner_pipeline qa_pipeline request log) = Return response ->
  exists qa_result,
    qa_pipeline (CombinedRequest.text request) (CombinedRequest.text request)
      = Return qa_result
    /\ QAResponse.answer (CombinedResponse.qa response) = QaResult.answer qa_result
    /\ QAResponse.score (CombinedResponse.qa response)
       = PyFloat (number_value (QaResult.score qa_result)).
Proof.
  intros H. apply process_returns_inv in H as [_ [ents [a [_ [Eq ->]]]]].
  exists a. split; [exact Eq|]. split; reflexivity.
Qed.

Lemma response_answer_copied_shoes :
  let request := {| CombinedRequest.text := py "I need new running shoes" |} in
  exists response qa_result,
    fst (@process_request ucd_rows sample_ner sample_qa request []) = Return response
    /\ sample_qa (CombinedRequest.text request) (CombinedRequest.text request)
       = Return qa_result
    /\ QAResponse.answer (CombinedResponse.qa response) = QaResult.answer qa_result.
Proof.
  intros request. eexists.
  assert (H : fst (@process_request ucd_rows sample_ner sample_qa request [])
              = Return _) by (vm_compute; reflexivity).
  destruct (response_answer_copied ucd_rows sample_ner sample_qa request [] _ H)
    as [a [Eq [Ha _]]].
  exists a. split; [exact H|]. split; [exact Eq | exact Ha].
Defined.

(** X10.  Every exception that leaves the handler is either its own
    400 for a rejected text, or the exception a pipeline raised on an
    accepted text, passed on as it is: the handler wraps or replaces
    none. *)
Theorem raised_exception_origin
    (db : UnicodeDB)
    (ner_pipeline : pystr -> result (list NerGroup.t))
    (qa_pipeline : pystr -> pystr -> result QaResult.t)
    (request : CombinedRequest.t) (log : list invocation) (e : exception) :
  let input_text := CombinedRequest.text request in
  fst (process_request ner_pipeline qa_pipeline request log) = Raise e ->
  (is_text_in_allowed_domain input_text allowed_domains = false
   /\ e = HTTPException 400 domain_detail)
  \/ (is_text_in_allowed_domain input_text allowed_domains = true
      /\ (ner_pipeline input_text = Raise e
          \/ exists ner_entities,
               ner_pipeline input_text = Return ner_entities
               /\ qa_pipeline input_text input_text = Raise e)).
Proof.
  intros input_text H.
  destruct (is_text_in_allowed_domain input_text allowed_domains) eqn:E.
  - right. split; [reflexivity|].
    rewrite (process_accepted ner_pipeline qa_pipeline request log E) in H.
    fold input_text in H.
    destruct (ner_pipeline input_text) as [ents | e1].
    + right. exists ents. split; [reflexivity|].
      destruct (qa_pipeline input_text input_text) as [a | e2];
        [discriminate H|].
      simpl in H. now injection H as ->.
    + left. simpl in H. now injection H as ->.
  - left. split; [reflexivity|].
    rewrite (process_rejected ner_pipeline qa_pipeline request log E) in H.
    simpl in H. now injection H as <-.
Qed.

Lemma raised_exception_origin_failing_qa :
  let request := {| CombinedRequest.text := py "I need new running shoes" |} in
  let e := PipelineError (py "CUDA out of memory") in
  fst (@process_request ucd_rows sample_ner failing_qa request []) = Raise e
  /\ exists ner_entities,
       sample_ner (CombinedRequest.text request) = Return ner_entities
       /\ failing_qa (CombinedRequest.text request) (CombinedRequest.text request)
          = Raise e.
Proof.
  intros request e.
  assert (H : fst (@process_request ucd_rows sample_ner failing_qa request [])
              = Raise e) by (vm_compute; reflexivity).
  split; [exact H|].
  destruct (raised_exception_origin ucd_rows sample_ner failing_qa request [] e H)
    as [[_ He] | [_ [Hn | Hq]]].
  - discriminate He.
  - discriminate Hn.
  - exact Hq.
Defined.

(** X11.  The models only ever see accepted text: whatever the request,
    the handler adds at most two invocations, each of them on the input
    text exactly as received, and only when that text passes the
    filter. *)
Theorem models_only_see_accepted_text
    (db : UnicodeDB)
    (ner_pipeline : pystr -> result (list NerGroup.t))
    (qa_pipeline : pystr -> pystr -> result QaResult.t)
    (request : CombinedRequest.t) (log : list invocation) :
  let input_text := CombinedRequest.text request in
  exists added,
    snd (process_request ner_pipeline qa_pipeline request log) = log ++ added
    /\ (List.length added <= 2)%nat
    /\ forall call, In call added ->
         (call = NerInvoked input_text \/ call = QaInvoked input_text input_text)
         /\ is_text_in_allowed_domain input_text allowed_domains = true.
Proof.
  intros input_text.
  destruct (is_text_in_allowed_domain input_text allowed_domains) eqn:E.
  - rewrite (process_accepted ner_pipeline qa_pipeline request log E).
    fold input_text.
    destruct (ner_pipeline input_text) as [ents | e1].
    + exists [NerInvoked input_text; QaInvoked input_text input_text].
      split; [now destruct (qa_pipeline input_text input_text)|].
      split; [simpl; lia|].
      intros call [<- | [<- | []]]; (split; [|reflexivity]); [now left | now right].
    + exists [NerInvoked input_text]. split; [reflexivity|].
      split; [simpl; lia|].
      intros call [<- | []]. split; [now left | reflexivity].
  - rewrite (process_rejected ner_pipeline qa_pipeline request log E).
    exists []. split; [simpl; now rewrite app_nil_r|].
    split; [simpl; lia|]. intros call [].
Qed.

(* ------------------------------------------------------------------ *)
(** * Package start-up *)

Lemma str_eqb_eq (a b : pystr) : str_eqb a b = true <-> a = b.
Proof.
  revert b; induction a as [|c a IH]; intros [|d b]; simpl;
    try (split; [discriminate | discriminate]); [easy|].
  rewrite andb_true_iff, N.eqb_eq, IH. split.
  - now intros [-> ->].
  - intros H. now injection H as -> ->.
Qed.

Lemma str_eqb_refl (a : pystr) : str_eqb a a = true.
Proof. now apply str_eqb_eq. Qed.

Lemma environ_find_app (f : pystr * pystr -> bool) (env1 env2 : environ) :
  List.find f (env1 ++ env2) =
  match List.find f env1 with Some item => Some item | None => List.find f env2 end.
Proof.
  induction env1 as [|item env1 IH]; simpl; [reflexivity|].
  now destruct (f item).
Qed.

(** Lookup after [setdefault], at the key. *)
Lemma environ_get_setdefault (env : environ) (key default : pystr) :
  environ_get (setdefault env key default) key =
  Some match environ_get env key with Some value => value | None => default end.
Proof.
  unfold setdefault. destruct (environ_get env key) as [value|] eqn:E.
  - exact E.
  - unfold environ_get in *. rewrite environ_find_app.
    destruct (List.find _ env); [discriminate E|].
    simpl. now rewrite str_eqb_refl.
Qed.

(** Lookup after [setdefault], at a key that was set. *)
Lemma environ_get_setdefault_kept (env : environ) (key default name value : pystr) :
  environ_get env name = Some value ->
  environ_get (setdefault env key default) name = Some value.
Proof.
  intros H. unfold setdefault. destruct (environ_get env key); [exact H|].
  unfold environ_get in *. rewrite environ_find_app.
  destruct (List.find _ env); [exact H | discriminate H].
Qed.

(** Lookup after [setdefault], at another key. *)
Lemma environ_get_setdefault_other (env : environ) (key default name : pystr) :
  name <> key ->
  environ_get (setdefault env key default) name = environ_get env name.
Proof.
  intros Hne. unfold setdefault. destruct (environ_get env key); [reflexivity|].
  unfold environ_get. rewrite environ_find_app.
  destruct (List.find _ env); [reflexivity|]. simpl.
  destruct (str_eqb key name) eqn:E; [|reflexivity].
  apply str_eqb_eq in E. congruence.
Qed.

(** X12.  Start-up never fails on the [APP_ENV] subscript, set or not.
    It hands [print] the line "Running in <mode> mode.", where the
    mode is the value [APP_ENV] already had, or "development" when it
    had none; it ends as that one [print] ends, and [APP_ENV] holds
    the mode afterwards either way. *)
Theorem package_init_prints_mode
    (print : printer) (env : environ) (stdout : pystr) :
  let mode :=
    match environ_get env (py "APP_ENV") with
    | Some value => value
    | None => py "development"
    end in
  environ_get (fst (package_init print env stdout)) (py "APP_ENV") = Some mode
  /\ snd (package_init print env stdout)
     = match print (py "Running in " ++ mode ++ py " mode.") stdout with
       | Some stdout' => Started stdout'
       | None => RaisedByPrint
       end.
Proof.
  intros mode. unfold package_init. simpl.
  rewrite environ_get_setdefault. fold mode. split; reflexivity.
Qed.

(** X13.  Start-up changes nothing that was set, however it ends:
    every variable keeps its value, [APP_ENV] included, and no name
    other than [APP_ENV] is added. *)
Theorem package_init_preserves_environment
    (print : printer) (env : environ) (stdout : pystr) :
  let env' := fst (package_init print env stdout) in
  (forall name value,
      environ_get env name = Some value -> environ_get env' name = Some value)
  /\ (forall name,
      name <> py "APP_ENV" -> environ_get env' name = environ_get env name).
Proof.
  intros env'. subst env'. unfold package_init. simpl. split.
  - intros name value. apply environ_get_setdefault_kept.
  - intros name. apply environ_get_setdefault_other.
Qed.

Lemma package_init_preserves_environment_production :
  let env := [(py "HOME", py "/root"); (py "APP_ENV", py "production")] in
  let env' := fst (package_init strict_utf8_print env []) in
  environ_get env' (py "APP_ENV") = Some (py "production")
  /\ environ_get env' (py "HOME") = Some (py "/root").
Proof.
  intros env env'.
  destruct (package_init_preserves_environment strict_utf8_print env [])
    as [Hkept _].
  split; apply Hkept; reflexivity.
Defined.

Example package_init_unset :
  package_init strict_utf8_print [(py "HOME", py "/root")] []
  = ([(py "HOME", py "/root"); (py "APP_ENV", py "development")],
     Started (py "Running in development mode." ++ [10])).
Proof. vm_compute. reflexivity. Qed.

(** An undecodable byte in [APP_ENV] is a lone surrogate, which a strict
    UTF-8 stream refuses: the variable stays, nothing is printed. *)
Example package_init_undecodable_mode :
  package_init strict_utf8_print [(py "APP_ENV", [0xDCFF])] []
  = ([(py "APP_ENV", [0xDCFF])], RaisedByPrint).
Proof. vm_compute. reflexivity. Qed.
